(** * get_cvm_info.py: lookup of a CVM by name in a JSON listing

    A shallow embedding of [worker/scripts/get_cvm_info.py] and the
    properties of its lookup, of its error handling and of its command-line
    entry point.

    The script reads a JSON document from standard input, scans the items
    of the document for the first non-terminated one whose name is the
    command-line argument, and prints a three-field summary of it.

    A Python [str] is the list of its code points.  Python values are an
    inductive type; the methods and operators the script uses ([.get], [==], [or], truthiness, [isinstance]) are
    functions on it.  Exceptions are an error monad, the process (standard
    streams) is a state threaded under it.  [json.loads] and the [repr] of
    finite floats belong to the Python library and are parameters of the
    development. *)

From Stdlib Require Import List String Ascii ZArith Bool Lia.
From Stdlib Require Import SpecFloat DecimalString.
Import ListNotations.
Local Open Scope string_scope.
#[local] Set Warnings "-register-all".

(** ** Monads *)

Class Monad (m : Type -> Type) : Type := {
  ret : forall {A : Type}, A -> m A;
  bind : forall {A B : Type}, m A -> (A -> m B) -> m B
}.

Declare Scope py_scope.
Delimit Scope py_scope with py.
Notation "x <- c1 ;; c2" := (bind c1 (fun x => c2))
  (at level 61, c1 at next level, right associativity) : py_scope.
Notation "c1 ;; c2" := (bind c1 (fun _ => c2))
  (at level 61, right associativity) : py_scope.
Local Open Scope py_scope.

(** ** Python strings *)

(** A [str] is a sequence of Unicode code points.  A literal of the
    script, all ASCII, is written as a Rocq string. *)
Definition pystr : Type := list N.

Definition str (s : string) : pystr :=
  map N_of_ascii (list_ascii_of_string s).

Coercion str : string >-> pystr.
Arguments str : simpl never.
#[local] Arguments pair {A B} & a b.
#[local] Arguments cons {A} & a l.
#[local] Arguments Some {A} & a.

(** [a == b] on two [str]. *)
Fixpoint pystr_eqb (a b : pystr) : bool :=
  match a, b with
  | [], [] => true
  | x :: a', y :: b' => (x =? y)%N && pystr_eqb a' b'
  | _, _ => false
  end.

(** ** Python values and exceptions *)

Module Py.

(** The values [json.loads] builds: [None], [bool], [int], [float], [str],
    [list] and [dict] with [str] keys.  A dict keeps its keys in insertion
    order, which [json.dumps] follows, so it is an association list;
    lookup takes the first binding of a key. *)
Inductive pyval : Type :=
| PNone
| PBool (b : bool)
| PInt (z : Z)
| PFloat (f : spec_float)
| PStr (s : pystr)
| PList (l : list pyval)
| PDict (d : list (pystr * pyval)).

(** The exceptions of the script.  [SystemExit] derives from
    [BaseException] only; the others derive from [Exception]. *)
Inductive exn : Type :=
| AttributeError
| IndexError
| JSONDecodeError
| UnicodeDecodeError
| SystemExit (code : Z).

Definition is_Exception (e : exn) : bool :=
  match e with
  | SystemExit _ => false
  | _ => true
  end.

Inductive exc (A : Type) : Type :=
| Return (a : A)
| Raise (e : exn).
Arguments Return {A} a.
Arguments Raise {A} e.

Definition exc_bind {A B : Type} (c : exc A) (k : A -> exc B) : exc B :=
  match c with
  | Return a => k a
  | Raise e => Raise e
  end.

#[export] Instance Monad_exc : Monad exc :=
  {| ret := @Return; bind := @exc_bind |}.

(** [bool(v)]: the truth value of [v] in an [if] or under [or]. *)
Definition truthy (v : pyval) : bool :=
  match v with
  | PNone => false
  | PBool b => b
  | PInt z => negb (z =? 0)%Z
  | PFloat (S754_zero _) => false
  | PFloat _ => true
  | PStr s => match s with [] => false | _ :: _ => true end
  | PList l => match l with [] => false | _ :: _ => true end
  | PDict d => match d with [] => false | _ :: _ => true end
  end.

Definition isinstance_dict (v : pyval) : bool :=
  match v with PDict _ => true | _ => false end.

Fixpoint dict_lookup (d : list (pystr * pyval)) (key : pystr) : option pyval :=
  match d with
  | [] => None
  | (k, v) :: d' => if pystr_eqb k key then Some v else dict_lookup d' key
  end.

(** [obj.get(key, default)].  Of the JSON values only a dict has a [get]
    method; on any other value the attribute lookup raises. *)
Definition get (obj : pyval) (key : pystr) (default : pyval) : exc pyval :=
  match obj with
  | PDict d =>
      Return (match dict_lookup d key with Some v => v | None => default end)
  | _ => Raise AttributeError
  end.

(** [v == s] for a [str] [s]: only an equal [str] compares equal. *)
Definition eq_str (v : pyval) (s : pystr) : bool :=
  match v with
  | PStr t => pystr_eqb t s
  | _ => false
  end.

(** [a or b]: [a] when it is truthy, without evaluating [b]; else [b]. *)
Definition or_else (a b : exc pyval) : exc pyval :=
  x <- a ;;
  if truthy x then Return x else b.

(** [l[i]] on a list. *)
Definition index {A : Type} (l : list A) (i : nat) : exc A :=
  match nth_error l i with
  | Some x => Return x
  | None => Raise IndexError
  end.

End Py.
Import Py.

(** ** The process: standard streams *)

(** [stdin] is the text still to be read, [None] when the bytes on the
    stream do not decode; [stdin_reads] counts the calls of
    [sys.stdin.read].  The script writes ASCII text only (the usage line
    and the text of [json.dumps]); the text written on a stream is a Rocq
    string. *)
Record world : Type := mkWorld {
  stdin : option pystr;
  stdin_reads : nat;
  stdout : string;
  stderr : string
}.

Definition M (A : Type) : Type := world -> exc A * world.

Definition M_bind {A B : Type} (c : M A) (k : A -> M B) : M B :=
  fun w =>
    match c w with
    | (Return a, w') => k a w'
    | (Raise e, w') => (Raise e, w')
    end.

#[export] Instance Monad_M : Monad M :=
  {| ret := fun A (a : A) (w : world) => (Return a, w); bind := @M_bind |}.

Definition lift {A : Type} (c : exc A) : M A := fun w => (c, w).

Definition raise {A : Type} (e : exn) : M A := fun w => (Raise e, w).

(** [try: body / except Exception: handler]. *)
Definition try_except {A : Type} (body handler : M A) : M A :=
  fun w =>
    match body w with
    | (Raise e, w') => if is_Exception e then handler w' else (Raise e, w')
    | r => r
    end.

Definition LF : string := String "010"%char "".

(** [sys.stdin.read()]: the whole remaining text. *)
Definition stdin_read : M pystr :=
  fun w =>
    match stdin w with
    | Some s =>
        (Return s, mkWorld (Some "") (S (stdin_reads w)) (stdout w) (stderr w))
    | None =>
        (Raise UnicodeDecodeError,
         mkWorld None (S (stdin_reads w)) (stdout w) (stderr w))
    end.

(** [print(s)] and [print(s, file=sys.stderr)]. *)
Definition print (s : string) : M unit :=
  fun w =>
    (Return tt, mkWorld (stdin w) (stdin_reads w) (stdout w ++ s ++ LF) (stderr w)).

Definition print_stderr (s : string) : M unit :=
  fun w =>
    (Return tt, mkWorld (stdin w) (stdin_reads w) (stdout w) (stderr w ++ s ++ LF)).

(** [sys.exit(code)]. *)
Definition sys_exit {A : Type} (code : Z) : M A := raise (SystemExit code).

(** The exit status of the interpreter after running a script: 0 at the
    end of the script, the code of an uncaught [SystemExit], 1 for any other
    uncaught exception. *)
Definition exit_status (r : exc unit) : Z :=
  match r with
  | Return _ => 0
  | Raise (SystemExit code) => code
  | Raise _ => 1
  end.

(** ** [json.dumps] with its default options *)

Module Json.

Definition dquote : string := String "034"%char "".
Definition backslash : string := String "092"%char "".

Definition hex_digit (n : N) : ascii :=
  match n with
  | 0 => "0" | 1 => "1" | 2 => "2" | 3 => "3" | 4 => "4" | 5 => "5"
  | 6 => "6" | 7 => "7" | 8 => "8" | 9 => "9" | 10 => "a" | 11 => "b"
  | 12 => "c" | 13 => "d" | 14 => "e" | _ => "f"
  end%N%char.

(** ['\\u{0:04x}'.format(n)] for [n] below 0x10000: four hexadecimal
    digits. *)
Definition hex4 (n : N) : string :=
  String (hex_digit (n / 4096 mod 16))
    (String (hex_digit (n / 256 mod 16))
       (String (hex_digit (n / 16 mod 16))
          (String (hex_digit (n mod 16)) ""))).

Definition u_escape (n : N) : string := backslash ++ "u" ++ hex4 n.

(** The replacement of one character in [encode_basestring_ascii], by its
    code point: [ESCAPE_DCT] for the quote, the backslash and the control
    characters; for what is outside [' '..'~'], [\uXXXX] below 0x10000
    and a surrogate pair from there on; the character itself otherwise. *)
Definition escape_char (n : N) : string :=
  if (n =? 34)%N then backslash ++ dquote
  else if (n =? 92)%N then backslash ++ backslash
  else if (n =? 8)%N then backslash ++ "b"
  else if (n =? 12)%N then backslash ++ "f"
  else if (n =? 10)%N then backslash ++ "n"
  else if (n =? 13)%N then backslash ++ "r"
  else if (n =? 9)%N then backslash ++ "t"
  else if ((n <? 32) || (126 <? n))%N then
    if (n <? 65536)%N then u_escape n
    else
      let m := (n - 65536)%N in
      let s1 := N.lor 55296 (N.land (N.shiftr m 10) 1023) in
      let s2 := N.lor 56320 (N.land m 1023) in
      u_escape s1 ++ u_escape s2
  else String (ascii_of_N n) "".

Fixpoint escape (s : pystr) : string :=
  match s with
  | [] => ""
  | c :: s' => escape_char c ++ escape s'
  end.

Definition encode_basestring_ascii (s : pystr) : string :=
  dquote ++ escape s ++ dquote.

Section Dumps.

(** [float.__repr__], used for the finite floats. *)
Variable float_repr : spec_float -> string.

Definition floatstr (f : spec_float) : string :=
  match f with
  | S754_nan => "NaN"
  | S754_infinity false => "Infinity"
  | S754_infinity true => "-Infinity"
  | _ => float_repr f
  end.

(** [json.dumps(v)]: separators [", "] and [": "], no indentation,
    [ensure_ascii] on. *)
Fixpoint dumps (v : pyval) : string :=
  match v with
  | PNone => "null"
  | PBool true => "true"
  | PBool false => "false"
  | PInt z => NilZero.string_of_int (Z.to_int z)
  | PFloat f => floatstr f
  | PStr s => encode_basestring_ascii s
  | PList l => "[" ++ String.concat ", " (map dumps l) ++ "]"
  | PDict d =>
      "{" ++ String.concat ", "
               (map (fun kv : pystr * pyval =>
                       let (k, x) := kv in
                       encode_basestring_ascii k ++ ": " ++ dumps x) d)
          ++ "}"
  end.

End Dumps.

End Json.

(** ** The script *)

(** Lines 13-15: the item sequence of the parsed document. *)
Definition select_items (data : pyval) : exc (list pyval) :=
  items <- (if isinstance_dict data
            then get data "items" (PList [])
            else Return data) ;;
  Return (match items with
          | PList l => l
          | _ => []
          end).

(** Lines 17-31: the loop.  The result is [target], [None] when the loop
    ends without a [break]. *)
Fixpoint scan (items : list pyval) (app_name : pystr) : exc pyval :=
  match items with
  | [] => Return PNone
  | item :: rest =>
      status <- get item "status" PNone ;;
      hosted <- get item "hosted" (PDict []) ;;
      h_status <- get hosted "status" PNone ;;
      if eq_str status "terminated" || eq_str h_status "terminated"
      then scan rest app_name
      else
        name <- get item "name" PNone ;;
        if eq_str name app_name then Return item
        else
          h_name <- get hosted "name" PNone ;;
          if eq_str h_name app_name then Return item
          else scan rest app_name
  end.

(** Lines 34-40: the dict returned for a target. *)
Definition summary (target : pyval) : exc pyval :=
  hosted <- get target "hosted" (PDict []) ;;
  id <- or_else (get hosted "id" PNone)
          (or_else (get target "id" PNone) (get target "vm_uuid" PNone)) ;;
  app_id <- or_else (get hosted "app_id" PNone) (get target "app_id" PNone) ;;
  dashboard_url <- or_else (get target "dapp_dashboard_url" PNone)
                     (get hosted "app_url" PNone) ;;
  Return (PDict [("id", id); ("app_id", app_id);
                 ("dashboard_url", dashboard_url)]).

(** Lines 13-40 and 43: what the function does with the parsed document. *)
Definition lookup (data : pyval) (app_name : pystr) : exc pyval :=
  items <- select_items data ;;
  target <- scan items app_name ;;
  if truthy target then summary target else Return PNone.

Section Script.

(** [json.loads]; [None] when it raises ([JSONDecodeError], or another
    subclass of [Exception]). *)
Variable json_loads : pystr -> option pyval.

Variable float_repr : spec_float -> string.

Definition loads (s : pystr) : M pyval :=
  match json_loads s with
  | Some data => ret data
  | None => raise JSONDecodeError
  end.

(** Lines 5-43. *)
Definition get_cvm_info (app_name : pystr) : M pyval :=
  try_except
    (input_str <- stdin_read ;;
     if negb (truthy (PStr input_str)) then ret PNone
     else
       data <- loads input_str ;;
       lift (lookup data app_name))
    (ret PNone).

Definition usage_line : string := "Usage: get_cvm_info.py <app_name>".

(** Lines 46-55. *)
Definition main (argv : list pystr) : M unit :=
  if (List.length argv <? 2)%nat
  then
    print_stderr usage_line ;;
    sys_exit 1
  else
    app_name <- lift (index argv 1) ;;
    info <- get_cvm_info app_name ;;
    if truthy info
    then print (Json.dumps float_repr info)
    else sys_exit 1.

(** Running the script as a process: exit status and final streams. *)
Definition run (argv : list pystr) (w : world) : Z * world :=
  let (r, w') := main argv w in (exit_status r, w').

End Script.

(** ** Vocabulary of the statements *)

(** The field [key] of a mapping, [None] when it is absent (or when [obj]
    is no mapping): the value of [obj.get(key)] where that does not raise. *)
Definition field (obj : pyval) (key : pystr) : pyval :=
  match obj with
  | PDict d => match dict_lookup d key with Some v => v | None => PNone end
  | _ => PNone
  end.

(** The value of [item.get("hosted", {})] on a mapping. *)
Definition hosted_of (item : pyval) : pyval :=
  match item with
  | PDict d =>
      match dict_lookup d "hosted" with Some h => h | None => PDict [] end
  | _ => PDict []
  end.

(** An item of the data model: a mapping whose [hosted] field is absent or
    a mapping. *)
Definition is_item (x : pyval) : bool :=
  isinstance_dict x && isinstance_dict (hosted_of x).

(** The item or its hosted mapping has status ["terminated"]. *)
Definition terminated (x : pyval) : bool :=
  eq_str (field x "status") "terminated"
  || eq_str (field (hosted_of x) "status") "terminated".

(** The name of the item or of its hosted mapping is [app_name]. *)
Definition named (x : pyval) (app_name : pystr) : bool :=
  eq_str (field x "name") app_name
  || eq_str (field (hosted_of x) "name") app_name.

(** The scan goes past [x]: an item that is terminated or has another
    name. *)
Definition passed_over (app_name : pystr) (x : pyval) : bool :=
  is_item x && (terminated x || negb (named x app_name)).

(** The scan stops on [x]: an item that is not terminated and is named
    [app_name]. *)
Definition is_match (app_name : pystr) (x : pyval) : bool :=
  is_item x && negb (terminated x) && named x app_name.

(** No element of the sequence is a non-terminated item named
    [app_name]. *)
Definition no_match (app_name : pystr) (items : list pyval) : bool :=
  forallb (fun x => negb (is_match app_name x)) items.

(** The item sequence of a parsed document. *)
Definition items_of (data : pyval) : list pyval :=
  match data with
  | PDict d =>
      match dict_lookup d "items" with
      | Some (PList l) => l
      | _ => []
      end
  | PList l => l
  | _ => []
  end.

(** The value of a chain [c1 or c2 or ... or cn]: the first truthy
    candidate, the last one when none is truthy. *)
Fixpoint first_truthy (candidates : list pyval) : pyval :=
  match candidates with
  | [] => PNone
  | [c] => c
  | c :: rest => if truthy c then c else first_truthy rest
  end.

(** The dict of line 35 written with [first_truthy]. *)
Definition summary_of (target : pyval) : pyval :=
  let hosted := hosted_of target in
  PDict
    [("id", first_truthy [field hosted "id"; field target "id";
                          field target "vm_uuid"]);
     ("app_id", first_truthy [field hosted "app_id"; field target "app_id"]);
     ("dashboard_url", first_truthy [field target "dapp_dashboard_url";
                                     field hosted "app_url"])].

(** A candidate that is [None] or truthy: not falsy without being [None]. *)
Definition null_or_truthy (c : pyval) : bool :=
  match c with
  | PNone => true
  | _ => truthy c
  end.

Definition no_line_break (c : ascii) : bool :=
  negb ((N_of_ascii c =? 10)%N || (N_of_ascii c =? 13)%N).

(** The text has no line feed and no carriage return. *)
Fixpoint single_line (s : string) : bool :=
  match s with
  | EmptyString => true
  | String c s' => no_line_break c && single_line s'
  end.

(** ** The specification's reading of steps 4 and 6 *)

Module Spec.

(** "first-non-null-wins coalescing": the first candidate that is not
    null, absent when there is none. *)
Fixpoint first_non_null (candidates : list pyval) : pyval :=
  match candidates with
  | [] => PNone
  | PNone :: rest => first_non_null rest
  | c :: _ => c
  end.

(** "Let hosted = item's hosted field if it is a mapping, else an empty
    mapping." *)
Definition hosted (item : pyval) : pyval :=
  if isinstance_dict (field item "hosted") then field item "hosted"
  else PDict [].

(** Step 6 of the specification. *)
Definition summary (item : pyval) : pyval :=
  PDict
    [("id", first_non_null [field (hosted item) "id"; field item "id";
                            field item "vm_uuid"]);
     ("app_id", first_non_null [field (hosted item) "app_id";
                                field item "app_id"]);
     ("dashboard_url", first_non_null [field item "dapp_dashboard_url";
                                       field (hosted item) "app_url"])].

(** Step 4 of the specification: the match of the scan, [None] when no
    item matches.  An element that is no mapping is an internal error. *)
Fixpoint scan (items : list pyval) (app_name : pystr) : exc pyval :=
  match items with
  | [] => Return PNone
  | item :: rest =>
      if negb (isinstance_dict item) then Raise AttributeError
      else if eq_str (field item "status") "terminated"
              || eq_str (field (hosted item) "status") "terminated"
      then scan rest app_name
      else if eq_str (field item "name") app_name
              || eq_str (field (hosted item) "name") app_name
      then Return item
      else scan rest app_name
  end.

End Spec.

(** ** Documents and processes used to run the model *)

(** The document on standard input as [get_cvm_info] sees it: none when
    the stream does not decode, is empty or does not parse. *)
Definition document (json_loads : pystr -> option pyval) (w : world)
  : option pyval :=
  match stdin w with
  | Some [] => None
  | Some s => json_loads s
  | None => None
  end.

(** The process after [sys.stdin.read()]. *)
Definition consumed (w : world) : world :=
  mkWorld (match stdin w with Some _ => Some "" | None => None end)
          (S (stdin_reads w)) (stdout w) (stderr w).

(** What [get_cvm_info] returns for a document, if any. *)
Definition outcome (doc : option pyval) (app_name : pystr) : pyval :=
  match doc with
  | Some data =>
      match lookup data app_name with
      | Return v => v
      | Raise _ => PNone
      end
  | None => PNone
  end.

(** A process about to start, with [s] on its standard input. *)
Definition fresh (s : pystr) : world := mkWorld (Some s) 0 "" "".

(** A [repr] for documents without finite floats. *)
Definition repr_sample (f : spec_float) : string := "0.0".

Definition item_terminated : pyval :=
  PDict [("name", PStr "a"); ("status", PStr "terminated"); ("id", PStr "x")].

Definition item_hosted : pyval :=
  PDict [("name", PStr "a"); ("id", PStr "123");
         ("hosted", PDict [("id", PStr "999"); ("app_id", PStr "app1")])].

Definition item_uuid : pyval :=
  PDict [("name", PStr "a"); ("vm_uuid", PStr "uuid1")].

Definition item_id2 : pyval :=
  PDict [("name", PStr "a"); ("id", PStr "id2")].

Definition item_empty_id : pyval :=
  PDict [("name", PStr "a"); ("id", PStr "123");
         ("hosted", PDict [("id", PStr "")])].

Definition item_hosted_string : pyval :=
  PDict [("name", PStr "a"); ("id", PStr "123"); ("hosted", PStr "x")].

Definition item_bare : pyval := PDict [("name", PStr "a")].

Definition item_other : pyval :=
  PDict [("name", PStr "b"); ("id", PStr "7")].

Definition item_terminated_hosted_string : pyval :=
  PDict [("name", PStr "a"); ("status", PStr "terminated");
         ("hosted", PStr "x")].

Definition item_hosted_null : pyval :=
  PDict [("name", PStr "a"); ("id", PStr "n1"); ("hosted", PNone)].

Definition doc_terminated : pyval :=
  PDict [("items", PList [item_terminated])].

Definition doc_hosted : pyval := PList [item_hosted].

Definition doc_first : pyval := PList [item_uuid; item_id2].

Definition doc_first_wrapped : pyval :=
  PDict [("items", PList [item_uuid; item_id2])].

Definition doc_empty_id : pyval := PList [item_empty_id].

Definition doc_hosted_string : pyval :=
  PList [item_other; item_hosted_string; item_id2].

Definition doc_stray_number : pyval :=
  PList [item_other; PInt 7; item_id2].

Definition doc_bare : pyval := PList [item_bare].

Definition doc_mixed : pyval :=
  PList [item_terminated; item_other; item_uuid; item_id2].

Definition doc_terminated_hosted_string : pyval :=
  PList [item_terminated_hosted_string; item_id2].

Definition doc_hosted_null : pyval :=
  PList [item_other; item_hosted_null; item_id2].

Definition documents : list pyval :=
  [doc_terminated; doc_hosted; doc_first; doc_first_wrapped; doc_empty_id;
   doc_hosted_string; doc_stray_number; doc_bare; doc_mixed;
   doc_terminated_hosted_string; doc_hosted_null].

(** The text of a document: its [json.dumps]. *)
Definition text_of (doc : pyval) : pystr := str (Json.dumps repr_sample doc).

(** A parser for the documents above; any other text is rejected. *)
Definition sample_loads (s : pystr) : option pyval :=
  find (fun doc => pystr_eqb (text_of doc) s) documents.

(** A match is found: the document parses and the scan ends on a target
    that passes the test of line 33. *)
Definition match_found (json_loads : pystr -> option pyval)
  (app_name : pystr) (w : world) : Prop :=
  exists data target,
    document json_loads w = Some data
    /\ scan (items_of data) app_name = Return target
    /\ truthy target = true.

Definition quoted (s : string) : string := Json.dquote ++ s ++ Json.dquote.

(** The line [{"id": null, "app_id": null, "dashboard_url": null}]. *)
Definition all_null_line : string :=
  "{" ++ quoted "id" ++ ": null, " ++ quoted "app_id" ++ ": null, "
      ++ quoted "dashboard_url" ++ ": null}".

(** ** Further vocabulary: document shapes and printed text *)

(** The document has one of the two payload shapes: a list, or an object
    whose "items" key holds a list. *)
Definition is_payload (data : pyval) : bool :=
  match data with
  | PList _ => true
  | PDict d =>
      match dict_lookup d "items" with
      | Some (PList _) => true
      | _ => false
      end
  | _ => false
  end.

(** A character of [' '..'~']. *)
Definition printable (c : ascii) : bool :=
  ((32 <=? N_of_ascii c) && (N_of_ascii c <=? 126))%N.

Fixpoint printable_ascii (s : string) : bool :=
  match s with
  | EmptyString => true
  | String c s' => printable c && printable_ascii s'
  end.

(** The line printed for a result with the values [id], [app_id] and
    [dashboard_url], each already serialised. *)
Definition result_line (id app_id dashboard_url : string) : string :=
  "{" ++ quoted "id" ++ ": " ++ id ++ ", "
      ++ quoted "app_id" ++ ": " ++ app_id ++ ", "
      ++ quoted "dashboard_url" ++ ": " ++ dashboard_url ++ "}".

Definition item_numeric_name : pyval :=
  PDict [("name", PInt 7); ("id", PStr "n7")].

Definition item_hosted_name : pyval :=
  PDict [("id", PStr "h1");
         ("hosted", PDict [("name", PStr "a"); ("app_url", PStr "http://h")])].

Definition item_deleted : pyval :=
  PDict [("name", PStr "a"); ("status", PStr "deleted"); ("id", PStr "d1");
         ("hosted", PDict [("status", PStr "stopped")])].

(** An item whose id is the euro sign, U+20AC, and whose app_id is
    U+1F600, a code point above U+FFFF. *)
Definition item_euro : pyval :=
  PDict [("name", PStr "a"); ("id", PStr [8364%N]);
         ("app_id", PStr [128512%N])].

Definition doc_euro : pyval := PList [item_euro].

Definition doc_scalar : pyval := PStr "a".

Definition doc_no_items : pyval := PDict [("data", PList [item_id2])].

Definition doc_items_object : pyval :=
  PDict [("items", PDict [("a", item_id2)])].

Definition doc_hosted_name : pyval :=
  PList [item_numeric_name; item_terminated; item_hosted_name; item_id2].

Definition shape_documents : list pyval :=
  [doc_scalar; doc_no_items; doc_items_object; doc_hosted_name; doc_euro].

(** A parser for the documents of [shape_documents], as [sample_loads] is
    for [documents]. *)
Definition shape_loads (s : pystr) : option pyval :=
  find (fun doc => pystr_eqb (text_of doc) s) shape_documents.

(** ** Python values: basic facts *)

Lemma pystr_eqb_eq a b : pystr_eqb a b = true <-> a = b.
Proof.
  revert b. induction a as [|x a IH]; intros [|y b]; simpl;
    try (split; [discriminate|discriminate]); [tauto|].
  rewrite andb_true_iff, N.eqb_eq, IH.
  split; [intros [-> ->]; reflexivity|intros H; injection H; auto].
Qed.

Lemma get_field obj key :
  isinstance_dict obj = true -> get obj key PNone = Return (field obj key).
Proof. destruct obj; simpl; intros H; try discriminate; reflexivity. Qed.

Lemma get_not_dict obj key default :
  isinstance_dict obj = false -> get obj key default = Raise AttributeError.
Proof. destruct obj; simpl; intros H; try discriminate; reflexivity. Qed.

Lemma get_hosted item :
  isinstance_dict item = true ->
  get item "hosted" (PDict []) = Return (hosted_of item).
Proof. destruct item; simpl; intros H; try discriminate; reflexivity. Qed.

Lemma is_item_dict x : is_item x = true -> isinstance_dict x = true.
Proof. unfold is_item. intros H. apply andb_prop in H. tauto. Qed.

Lemma is_item_hosted x :
  is_item x = true -> isinstance_dict (hosted_of x) = true.
Proof. unfold is_item. intros H. apply andb_prop in H. tauto. Qed.

(** A mapping with a name, or with a hosted mapping, is not empty. *)
Lemma named_truthy x app_name :
  isinstance_dict x = true -> named x app_name = true -> truthy x = true.
Proof.
  destruct x as [| | | | |l|d]; simpl; try discriminate.
  intros _. destruct d as [|kv d]; [|reflexivity].
  unfold named. simpl. discriminate.
Qed.

(** ** The scan *)

Lemma scan_cons_item x rest app_name :
  is_item x = true ->
  scan (x :: rest) app_name
  = if terminated x then scan rest app_name
    else if named x app_name then Return x
    else scan rest app_name.
Proof.
  intros Hx.
  pose proof (is_item_dict _ Hx) as Hd.
  pose proof (is_item_hosted _ Hx) as Hh.
  simpl.
  rewrite (get_field x "status" Hd), (get_hosted x Hd). simpl.
  rewrite (get_field _ "status" Hh). simpl.
  fold (terminated x).
  destruct (terminated x); [reflexivity|].
  rewrite (get_field x "name" Hd). simpl.
  unfold named.
  destruct (eq_str (field x "name") app_name); [reflexivity|].
  rewrite (get_field _ "name" Hh). simpl. reflexivity.
Qed.

Lemma scan_cons_malformed x rest app_name :
  is_item x = false -> scan (x :: rest) app_name = Raise AttributeError.
Proof.
  unfold is_item. intros Hx.
  destruct (isinstance_dict x) eqn:Hd; simpl in Hx.
  - simpl. rewrite (get_field x "status" Hd), (get_hosted x Hd). simpl.
    rewrite (get_not_dict _ "status" PNone Hx). reflexivity.
  - simpl. rewrite (get_not_dict x "status" PNone Hd). reflexivity.
Qed.

Lemma scan_cons_passed x rest app_name :
  passed_over app_name x = true ->
  scan (x :: rest) app_name = scan rest app_name.
Proof.
  unfold passed_over. intros H. apply andb_prop in H. destruct H as [Hx H].
  rewrite (scan_cons_item _ _ _ Hx).
  destruct (terminated x); [reflexivity|].
  simpl in H. destruct (named x app_name); [discriminate|reflexivity].
Qed.

Lemma scan_prefix_passed pre rest app_name :
  forallb (passed_over app_name) pre = true ->
  scan (pre ++ rest) app_name = scan rest app_name.
Proof.
  induction pre as [|x pre IH]; simpl; intros H; [reflexivity|].
  apply andb_prop in H. destruct H as [Hx Hpre].
  change (scan (x :: pre ++ rest) app_name = scan rest app_name).
  rewrite (scan_cons_passed _ _ _ Hx). auto.
Qed.

Lemma scan_raises items app_name e :
  scan items app_name = Raise e -> e = AttributeError.
Proof.
  induction items as [|x items IH]; [discriminate|].
  destruct (is_item x) eqn:Hx.
  - rewrite (scan_cons_item _ _ _ Hx).
    destruct (terminated x); [exact IH|].
    destruct (named x app_name); [discriminate|exact IH].
  - rewrite (scan_cons_malformed _ _ _ Hx). congruence.
Qed.

(** What the scan returns is [None] or the first element that is
    neither passed over nor malformed. *)
Lemma scan_returns items app_name target :
  scan items app_name = Return target ->
  (target = PNone /\ forallb (passed_over app_name) items = true)
  \/ (exists pre post,
        items = (pre ++ target :: post)%list
        /\ forallb (passed_over app_name) pre = true
        /\ is_item target = true
        /\ terminated target = false
        /\ named target app_name = true).
Proof.
  induction items as [|x items IH].
  - simpl. intros H. injection H as <-. left. split; reflexivity.
  - destruct (is_item x) eqn:Hx.
    + rewrite (scan_cons_item _ _ _ Hx).
      destruct (terminated x) eqn:Ht.
      * intros H. destruct (IH H) as [[-> Hp]|(pre & post & -> & Hp & Hrest)].
        -- left. split; [reflexivity|]. simpl. unfold passed_over at 1.
           rewrite Hx, Ht. exact Hp.
        -- right. exists (x :: pre), post. split; [reflexivity|].
           split; [|exact Hrest]. simpl. unfold passed_over at 1.
           rewrite Hx, Ht. exact Hp.
      * destruct (named x app_name) eqn:Hn.
        -- intros H. injection H as <-. right. exists [], items.
           repeat split; assumption.
        -- intros H. destruct (IH H) as [[-> Hp]|(pre & post & -> & Hp & Hrest)].
           ++ left. split; [reflexivity|]. simpl. unfold passed_over at 1.
              rewrite Hx, Ht, Hn. exact Hp.
           ++ right. exists (x :: pre), post. split; [reflexivity|].
              split; [|exact Hrest]. simpl. unfold passed_over at 1.
              rewrite Hx, Ht, Hn. exact Hp.
    + rewrite (scan_cons_malformed _ _ _ Hx). discriminate.
Qed.

(** A target that passes the test of line 33 is the first match of the
    sequence, and conversely. *)
Lemma scan_match_iff items app_name target :
  scan items app_name = Return target /\ truthy target = true
  <-> exists pre post,
        items = (pre ++ target :: post)%list
        /\ forallb (passed_over app_name) pre = true
        /\ is_match app_name target = true.
Proof.
  unfold is_match. split.
  - intros [Hs Ht].
    destruct (scan_returns _ _ _ Hs)
      as [[-> _]|(pre & post & Hi & Hp & Hx & Hnt & Hn)]; [discriminate|].
    exists pre, post. rewrite Hx, Hnt, Hn. auto.
  - intros (pre & post & -> & Hp & Hm).
    apply andb_prop in Hm. destruct Hm as [Hm Hn].
    apply andb_prop in Hm. destruct Hm as [Hx Hnt].
    apply negb_true_iff in Hnt.
    rewrite (scan_prefix_passed _ _ _ Hp), (scan_cons_item _ _ _ Hx), Hnt, Hn.
    split; [reflexivity|].
    exact (named_truthy _ _ (is_item_dict _ Hx) Hn).
Qed.

(** ** The summary and the lookup *)

Lemma summary_item x :
  is_item x = true -> summary x = Return (summary_of x).
Proof.
  intros Hx.
  pose proof (is_item_dict _ Hx) as Hd.
  pose proof (is_item_hosted _ Hx) as Hh.
  unfold summary, summary_of.
  rewrite (get_hosted x Hd). simpl.
  rewrite !(get_field (hosted_of x) _ Hh), !(get_field x _ Hd).
  unfold or_else. simpl.
  destruct (truthy (field (hosted_of x) "id")),
           (truthy (field x "id")),
           (truthy (field (hosted_of x) "app_id")),
           (truthy (field x "dapp_dashboard_url")); reflexivity.
Qed.

Lemma select_items_items_of data :
  select_items data = Return (items_of data).
Proof.
  unfold select_items.
  destruct data as [| | | | |l|d]; try reflexivity.
  simpl. destruct (dict_lookup d "items") as [v|]; reflexivity.
Qed.

Lemma lookup_scan data app_name :
  lookup data app_name
  = match scan (items_of data) app_name with
    | Return target => if truthy target then summary target else Return PNone
    | Raise e => Raise e
    end.
Proof.
  unfold lookup. rewrite select_items_items_of. simpl.
  destruct (scan (items_of data) app_name); reflexivity.
Qed.

Lemma lookup_found data app_name target :
  scan (items_of data) app_name = Return target ->
  target <> PNone ->
  lookup data app_name = Return (summary_of target).
Proof.
  intros Hs Hn. rewrite lookup_scan, Hs.
  destruct (scan_returns _ _ _ Hs) as [[-> _]|(pre & post & _ & _ & Hx & _ & Hm)];
    [congruence|].
  rewrite (named_truthy _ _ (is_item_dict _ Hx) Hm).
  apply summary_item, Hx.
Qed.

Lemma lookup_raises data app_name e :
  lookup data app_name = Raise e -> e = AttributeError.
Proof.
  rewrite lookup_scan.
  destruct (scan (items_of data) app_name) as [target|e'] eqn:Hs.
  - destruct (scan_returns _ _ _ Hs) as [[-> _]|(pre & post & _ & _ & Hx & _ & Hm)].
    + discriminate.
    + rewrite (named_truthy _ _ (is_item_dict _ Hx) Hm), (summary_item _ Hx).
      discriminate.
  - intros H. injection H as <-. eapply scan_raises, Hs.
Qed.

(** ** [get_cvm_info] as a function of the document *)

Section ScriptFacts.

Variable json_loads : pystr -> option pyval.

Lemma get_cvm_info_outcome app_name w :
  get_cvm_info json_loads app_name w
  = (Return (outcome (document json_loads w) app_name), consumed w).
Proof.
  unfold get_cvm_info, try_except, document, consumed, stdin_read, loads.
  simpl. unfold M_bind.
  destruct (stdin w) as [s|]; [|reflexivity].
  simpl. destruct s as [|c s]; [reflexivity|].
  simpl. destruct (json_loads (c :: s)) as [data|]; [|reflexivity].
  simpl. unfold lift.
  destruct (lookup data app_name) as [v|e] eqn:Hl; [reflexivity|].
  rewrite (lookup_raises _ _ _ Hl). reflexivity.
Qed.

End ScriptFacts.

(** ** Induction on values *)

Lemma pyval_induction (P : pyval -> Prop) :
  P PNone ->
  (forall b, P (PBool b)) ->
  (forall z, P (PInt z)) ->
  (forall f, P (PFloat f)) ->
  (forall s, P (PStr s)) ->
  (forall l, Forall P l -> P (PList l)) ->
  (forall d, Forall (fun kv => P (snd kv)) d -> P (PDict d)) ->
  forall v, P v.
Proof.
  intros HNone HBool HInt HFloat HStr HList HDict.
  fix IH 1. intros [|b|z|f|s|l|d].
  - exact HNone.
  - apply HBool.
  - apply HInt.
  - apply HFloat.
  - apply HStr.
  - apply HList. induction l as [|x l IHl]; constructor; [apply IH|exact IHl].
  - apply HDict. induction d as [|[k x] d IHd]; constructor; [apply IH|exact IHd].
Qed.

(** ** Text *)

Lemma string_app_assoc (a b c : string) : (a ++ b) ++ c = a ++ b ++ c.
Proof. induction a as [|x a IH]; simpl; [reflexivity|]. rewrite IH. reflexivity. Qed.

Lemma string_app_nil_r (a : string) : a ++ "" = a.
Proof. induction a as [|x a IH]; simpl; [reflexivity|]. rewrite IH. reflexivity. Qed.

(** ** The printed text is printable ASCII *)

Lemma printable_ascii_app a b :
  printable_ascii (a ++ b) = printable_ascii a && printable_ascii b.
Proof.
  induction a as [|c a IH]; simpl; [reflexivity|].
  rewrite IH. apply andb_assoc.
Qed.

Lemma printable_ascii_concat sep l :
  printable_ascii sep = true ->
  Forall (fun s => printable_ascii s = true) l ->
  printable_ascii (String.concat sep l) = true.
Proof.
  intros Hsep. induction 1 as [|s l Hs Hl IH]; [reflexivity|].
  destruct l as [|s' l]; [exact Hs|].
  change (printable_ascii (s ++ sep ++ String.concat sep (s' :: l)) = true).
  rewrite !printable_ascii_app, Hs, Hsep, IH. reflexivity.
Qed.

Lemma printable_hex_digit k : printable (Json.hex_digit k) = true.
Proof.
  destruct k as [|p]; [reflexivity|].
  do 4 (destruct p as [p|p|]; try reflexivity).
Qed.

Lemma printable_u_escape n : printable_ascii (Json.u_escape n) = true.
Proof.
  unfold Json.u_escape, Json.hex4. simpl.
  rewrite !printable_hex_digit. reflexivity.
Qed.

(** Every code point is written with printable ASCII characters. *)
Lemma printable_escape_char n : printable_ascii (Json.escape_char n) = true.
Proof.
  unfold Json.escape_char.
  destruct (n =? 34)%N; [reflexivity|].
  destruct (n =? 92)%N; [reflexivity|].
  destruct (n =? 8)%N; [reflexivity|].
  destruct (n =? 12)%N; [reflexivity|].
  destruct (n =? 10)%N; [reflexivity|].
  destruct (n =? 13)%N; [reflexivity|].
  destruct (n =? 9)%N; [reflexivity|].
  destruct ((n <? 32) || (126 <? n))%N eqn:Hout.
  - destruct (n <? 65536)%N; [apply printable_u_escape|].
    cbv zeta. rewrite printable_ascii_app, !printable_u_escape. reflexivity.
  - apply orb_false_elim in Hout. destruct Hout as [Hlo Hhi].
    apply N.ltb_ge in Hlo. apply N.ltb_ge in Hhi.
    simpl. unfold printable. rewrite N_ascii_embedding by lia.
    rewrite andb_true_r. apply andb_true_intro.
    split; apply N.leb_le; assumption.
Qed.

Lemma printable_no_line_break c : printable c = true -> no_line_break c = true.
Proof.
  unfold printable, no_line_break. intros H. apply andb_prop in H.
  destruct H as [Hlo _]. apply N.leb_le in Hlo.
  destruct (N.eqb_spec (N_of_ascii c) 10); [lia|].
  destruct (N.eqb_spec (N_of_ascii c) 13); [lia|]. reflexivity.
Qed.

Lemma printable_single_line s :
  printable_ascii s = true -> single_line s = true.
Proof.
  induction s as [|c s IH]; simpl; [reflexivity|].
  intros H. apply andb_prop in H. destruct H as [Hc Hs].
  rewrite (printable_no_line_break _ Hc), (IH Hs). reflexivity.
Qed.

Lemma printable_escape s : printable_ascii (Json.escape s) = true.
Proof.
  induction s as [|c s IH]; simpl; [reflexivity|].
  rewrite printable_ascii_app, printable_escape_char, IH. reflexivity.
Qed.

Lemma printable_encode s :
  printable_ascii (Json.encode_basestring_ascii s) = true.
Proof.
  unfold Json.encode_basestring_ascii.
  rewrite !printable_ascii_app, printable_escape. reflexivity.
Qed.

Lemma printable_uint d : printable_ascii (NilEmpty.string_of_uint d) = true.
Proof. induction d; simpl; auto. Qed.

Lemma printable_int z :
  printable_ascii (NilZero.string_of_int (Z.to_int z)) = true.
Proof.
  destruct (Z.to_int z) as [d|d]; simpl;
    destruct d; simpl; auto using printable_uint.
Qed.

Section DumpsAscii.

Variable float_repr : spec_float -> string.
Hypothesis float_repr_ascii : forall f, printable_ascii (float_repr f) = true.

Lemma printable_dumps v : printable_ascii (Json.dumps float_repr v) = true.
Proof.
  induction v as [|b|z|f|s|l IH|d IH] using pyval_induction.
  - reflexivity.
  - destruct b; reflexivity.
  - apply printable_int.
  - destruct f as [sg|sg| |sg m e]; simpl; auto. destruct sg; reflexivity.
  - apply printable_encode.
  - simpl. rewrite printable_ascii_app, andb_true_r.
    apply printable_ascii_concat; [reflexivity|].
    apply Forall_map. exact IH.
  - simpl. rewrite printable_ascii_app, andb_true_r.
    apply printable_ascii_concat; [reflexivity|].
    apply Forall_map. eapply Forall_impl; [|exact IH].
    intros [k x] Hx. simpl in Hx |- *.
    rewrite !printable_ascii_app, printable_escape. simpl. exact Hx.
Qed.

End DumpsAscii.

Lemma dumps_result_line float_repr id app_id dashboard_url :
  Json.dumps float_repr
    (PDict [("id", id); ("app_id", app_id); ("dashboard_url", dashboard_url)])
  = result_line (Json.dumps float_repr id) (Json.dumps float_repr app_id)
      (Json.dumps float_repr dashboard_url).
Proof.
  unfold result_line, quoted. simpl.
  repeat (rewrite string_app_assoc; simpl). reflexivity.
Qed.

(** The escapes of some characters outside ASCII. *)
Example escape_e_acute :
  Json.encode_basestring_ascii [233%N] = quoted (Json.backslash ++ "u00e9").
Proof. reflexivity. Qed.

Example escape_euro :
  Json.encode_basestring_ascii [8364%N] = quoted (Json.backslash ++ "u20ac").
Proof. reflexivity. Qed.

Example escape_surrogate_pair :
  Json.encode_basestring_ascii [128512%N]
  = quoted (Json.backslash ++ "ud83d" ++ Json.backslash ++ "ude00").
Proof. reflexivity. Qed.

Example escape_controls :
  Json.encode_basestring_ascii [10%N; 34%N; 92%N; 127%N; 1%N]
  = quoted (Json.backslash ++ "n" ++ Json.backslash ++ Json.dquote
            ++ Json.backslash ++ Json.backslash
            ++ Json.backslash ++ "u007f" ++ Json.backslash ++ "u0001").
Proof. reflexivity. Qed.

(** ** [json.dumps] writes one line *)

Lemma single_line_app a b :
  single_line (a ++ b) = single_line a && single_line b.
Proof.
  induction a as [|c a IH]; simpl; [reflexivity|].
  rewrite IH. apply andb_assoc.
Qed.

Lemma single_line_concat sep l :
  single_line sep = true ->
  Forall (fun s => single_line s = true) l ->
  single_line (String.concat sep l) = true.
Proof.
  intros Hsep. induction 1 as [|s l Hs Hl IH]; [reflexivity|].
  destruct l as [|s' l]; [exact Hs|].
  change (single_line (s ++ sep ++ String.concat sep (s' :: l)) = true).
  rewrite !single_line_app, Hs, Hsep, IH. reflexivity.
Qed.

Lemma single_line_escape_char c : single_line (Json.escape_char c) = true.
Proof. apply printable_single_line, printable_escape_char. Qed.

Lemma single_line_escape s : single_line (Json.escape s) = true.
Proof.
  induction s as [|c s IH]; simpl; [reflexivity|].
  rewrite single_line_app, single_line_escape_char, IH. reflexivity.
Qed.

Lemma single_line_encode s :
  single_line (Json.encode_basestring_ascii s) = true.
Proof.
  unfold Json.encode_basestring_ascii.
  rewrite !single_line_app, single_line_escape. reflexivity.
Qed.

Lemma single_line_uint d : single_line (NilEmpty.string_of_uint d) = true.
Proof. induction d; simpl; auto. Qed.

Lemma single_line_int z :
  single_line (NilZero.string_of_int (Z.to_int z)) = true.
Proof.
  destruct (Z.to_int z) as [d|d]; simpl;
    destruct d; simpl; auto using single_line_uint.
Qed.

Section DumpsFacts.

Variable float_repr : spec_float -> string.
Hypothesis float_repr_line : forall f, single_line (float_repr f) = true.

Lemma single_line_dumps v : single_line (Json.dumps float_repr v) = true.
Proof.
  induction v as [|b|z|f|s|l IH|d IH] using pyval_induction.
  - reflexivity.
  - destruct b; reflexivity.
  - apply single_line_int.
  - destruct f as [sg|sg| |sg m e]; simpl; auto. destruct sg; reflexivity.
  - apply single_line_encode.
  - simpl. rewrite single_line_app, andb_true_r.
    apply single_line_concat; [reflexivity|].
    apply Forall_map. exact IH.
  - simpl. rewrite single_line_app, andb_true_r.
    apply single_line_concat; [reflexivity|].
    apply Forall_map. eapply Forall_impl; [|exact IH].
    intros [k x] Hx. simpl in Hx |- *.
    rewrite !single_line_app, single_line_escape. simpl. exact Hx.
Qed.

End DumpsFacts.

(** ** The process *)

Lemma truthy_not_None v : truthy v = true -> v <> PNone.
Proof. intros H ->. discriminate. Qed.

Lemma scan_cons_no_match x rest app_name :
  is_match app_name x = false ->
  scan (x :: rest) app_name
  = if is_item x then scan rest app_name else Raise AttributeError.
Proof.
  unfold is_match. intros H. destruct (is_item x) eqn:Hi.
  - apply scan_cons_passed. unfold passed_over. rewrite Hi. simpl in *.
    destruct (terminated x); [reflexivity|]. simpl in *. rewrite H.
    reflexivity.
  - apply scan_cons_malformed, Hi.
Qed.

(** Past a prefix without a match the scan goes on, unless an element of
    the prefix made it raise. *)
Lemma scan_prefix_no_match pre rest app_name :
  no_match app_name pre = true ->
  scan (pre ++ rest) app_name = scan rest app_name
  \/ scan (pre ++ rest) app_name = Raise AttributeError.
Proof.
  unfold no_match.
  induction pre as [|x pre IH]; simpl forallb; intros H.
  - left. reflexivity.
  - apply andb_prop in H. destruct H as [Hx H].
    apply negb_true_iff in Hx.
    change (scan ((x :: pre) ++ rest) app_name)
      with (scan (x :: pre ++ rest) app_name).
    rewrite (scan_cons_no_match _ _ _ Hx).
    destruct (is_item x); [auto|]. right. reflexivity.
Qed.

Lemma scan_no_match items app_name :
  no_match app_name items = true ->
  scan items app_name = Return PNone
  \/ scan items app_name = Raise AttributeError.
Proof.
  intros H. rewrite <- (app_nil_r items).
  exact (scan_prefix_no_match items [] app_name H).
Qed.

(** The scan raises when it reaches an element on which it raises. *)
Lemma scan_reaches_malformed pre x post app_name :
  no_match app_name pre = true ->
  is_item x = false ->
  scan (pre ++ x :: post) app_name = Raise AttributeError.
Proof.
  intros Hpre Hx.
  destruct (scan_prefix_no_match pre (x :: post) app_name Hpre) as [-> | ->];
    [apply scan_cons_malformed, Hx|reflexivity].
Qed.

Section ProcessFacts.

Variable json_loads : pystr -> option pyval.
Variable float_repr : spec_float -> string.

Lemma outcome_found w data app_name target :
  document json_loads w = Some data ->
  scan (items_of data) app_name = Return target ->
  truthy target = true ->
  outcome (document json_loads w) app_name = summary_of target.
Proof.
  intros Hd Hs Ht. rewrite Hd. simpl.
  rewrite (lookup_found _ _ _ Hs (truthy_not_None _ Ht)). reflexivity.
Qed.

(** The outcome is [None] unless a match is found. *)
Lemma outcome_cases app_name w :
  (outcome (document json_loads w) app_name = PNone
   /\ ~ match_found json_loads app_name w)
  \/ (exists data target,
        document json_loads w = Some data
        /\ scan (items_of data) app_name = Return target
        /\ truthy target = true
        /\ outcome (document json_loads w) app_name = summary_of target).
Proof.
  destruct (document json_loads w) as [data|] eqn:Hd.
  - destruct (scan (items_of data) app_name) as [target|e] eqn:Hs.
    + destruct (truthy target) eqn:Ht.
      * right. exists data, target. repeat split; try assumption.
        simpl. rewrite (lookup_found _ _ _ Hs (truthy_not_None _ Ht)).
        reflexivity.
      * left. split.
        -- simpl. rewrite lookup_scan, Hs, Ht. reflexivity.
        -- intros (data' & target' & Hd' & Hs' & Ht'). congruence.
    + left. split.
      * simpl. rewrite lookup_scan, Hs. reflexivity.
      * intros (data' & target' & Hd' & Hs' & Ht'). congruence.
  - left. split; [reflexivity|].
    intros (data' & target' & Hd' & _). congruence.
Qed.

Lemma document_consumed w data :
  document json_loads w = Some data ->
  consumed w = mkWorld (Some "") (S (stdin_reads w)) (stdout w) (stderr w).
Proof.
  unfold document, consumed. destruct (stdin w); [reflexivity|discriminate].
Qed.

(** With a name on the command line the script runs [get_cvm_info] and
    branches on the truth value of its result. *)
Lemma run_named prog app_name args w :
  run json_loads float_repr (prog :: app_name :: args) w
  = let info := outcome (document json_loads w) app_name in
    if truthy info
    then (0%Z, mkWorld (stdin (consumed w)) (stdin_reads (consumed w))
                 (stdout w ++ Json.dumps float_repr info ++ LF) (stderr w))
    else (1%Z, consumed w).
Proof.
  unfold run, main. simpl. unfold M_bind, lift. simpl.
  rewrite get_cvm_info_outcome.
  destruct (truthy (outcome (document json_loads w) app_name)); reflexivity.
Qed.

End ProcessFacts.

(** ** Coalescing *)

(** Where no candidate but the last is falsy without being [None], the
    first truthy one is the first that is not [None]. *)
Lemma first_truthy_non_null candidates :
  forallb null_or_truthy (removelast candidates) = true ->
  first_truthy candidates = Spec.first_non_null candidates.
Proof.
  induction candidates as [|c rest IH]; [reflexivity|].
  destruct rest as [|c' rest'].
  - intros _. destruct c; reflexivity.
  - change (removelast (c :: c' :: rest'))
      with (c :: removelast (c' :: rest')).
    simpl forallb. intros H. apply andb_prop in H. destruct H as [Hc Hrest].
    specialize (IH Hrest).
    change (first_truthy (c :: c' :: rest'))
      with (if truthy c then c else first_truthy (c' :: rest')).
    destruct c; simpl in Hc |- *; try exact IH; rewrite Hc; reflexivity.
Qed.

Lemma spec_hosted_item x : is_item x = true -> Spec.hosted x = hosted_of x.
Proof.
  unfold is_item, Spec.hosted. intros H. apply andb_prop in H.
  destruct H as [Hd Hh]. destruct x as [| | | | |l|d]; try discriminate.
  simpl in *. destruct (dict_lookup d "hosted") as [h|]; [|reflexivity].
  rewrite Hh. reflexivity.
Qed.

(** On an item whose candidates are [None] or truthy, the last of each
    chain apart, the summary is the one of the specification. *)
Lemma summary_of_spec x :
  is_item x = true ->
  forallb null_or_truthy
    [field (hosted_of x) "id"; field x "id"; field (hosted_of x) "app_id";
     field x "dapp_dashboard_url"] = true ->
  summary_of x = Spec.summary x.
Proof.
  intros Hx H. simpl in H.
  apply andb_prop in H. destruct H as [H1 H].
  apply andb_prop in H. destruct H as [H2 H].
  apply andb_prop in H. destruct H as [H3 H].
  apply andb_prop in H. destruct H as [H4 _].
  unfold summary_of, Spec.summary. rewrite (spec_hosted_item _ Hx).
  rewrite !first_truthy_non_null; [reflexivity| | |]; simpl;
    rewrite ?H1, ?H2, ?H3, ?H4; reflexivity.
Qed.

(** On items of the data model the scan is the one of the
    specification. *)
Lemma scan_spec_items items app_name :
  forallb is_item items = true ->
  scan items app_name = Spec.scan items app_name.
Proof.
  induction items as [|x items IH]; [reflexivity|].
  simpl forallb. intros H. apply andb_prop in H. destruct H as [Hx Hitems].
  rewrite (scan_cons_item _ _ _ Hx), (IH Hitems).
  simpl. rewrite (is_item_dict _ Hx), (spec_hosted_item _ Hx). simpl.
  fold (terminated x). fold (named x app_name). reflexivity.
Qed.

(** ** The properties of the script *)

Section Properties.

Variable json_loads : pystr -> option pyval.
Variable float_repr : spec_float -> string.

(** C1, as amended.  For every matched item the result is built by
    first-truthy-wins coalescing: [id] is hosted.id, else item.id, else
    item.vm_uuid; [app_id] is hosted.app_id, else item.app_id;
    [dashboard_url] is item.dapp_dashboard_url, else hosted.app_url.  A
    candidate that is null or falsy in another way (the empty string, zero,
    false, an empty list or mapping) falls through to the next one, and the
    last candidate is taken as it is, null when the field is absent. *)
Theorem summary_first_truthy app_name w data target :
  document json_loads w = Some data ->
  scan (items_of data) app_name = Return target ->
  truthy target = true ->
  get_cvm_info json_loads app_name w
  = (Return
       (PDict
          [("id", first_truthy [field (hosted_of target) "id";
                                field target "id";
                                field target "vm_uuid"]);
           ("app_id", first_truthy [field (hosted_of target) "app_id";
                                    field target "app_id"]);
           ("dashboard_url", first_truthy [field target "dapp_dashboard_url";
                                           field (hosted_of target) "app_url"])]),
     consumed w).
Proof.
  intros Hd Hs Ht.
  rewrite get_cvm_info_outcome, (outcome_found _ _ _ _ _ Hd Hs Ht).
  reflexivity.
Qed.

(** C2, as amended.  An item without a [hosted] field is scanned with the
    empty mapping for it, on its own [status] and [name].  An item whose
    [hosted] field is present and is no mapping is not: when the scan
    reaches it, no element before it being a match, the scan raises and the
    lookup as a whole signals absence, whatever the name of the item and
    whatever follows it. *)
Theorem hosted_not_mapping_absence app_name :
  (forall d rest,
      dict_lookup d "hosted" = None ->
      scan (PDict d :: rest) app_name
      = if eq_str (field (PDict d) "status") "terminated"
        then scan rest app_name
        else if eq_str (field (PDict d) "name") app_name
             then Return (PDict d)
             else scan rest app_name)
  /\ (forall w data pre x post,
         document json_loads w = Some data ->
         items_of data = (pre ++ x :: post)%list ->
         no_match app_name pre = true ->
         isinstance_dict x = true ->
         isinstance_dict (hosted_of x) = false ->
         scan (items_of data) app_name = Raise AttributeError
         /\ get_cvm_info json_loads app_name w = (Return PNone, consumed w)).
Proof.
  split.
  - intros d rest Hh.
    assert (Hx : is_item (PDict d) = true).
    { unfold is_item. simpl. rewrite Hh. reflexivity. }
    rewrite (scan_cons_item _ _ _ Hx). unfold terminated, named. simpl.
    rewrite Hh. simpl. rewrite !orb_false_r. reflexivity.
  - intros w data pre x post Hd Hi Hpre Hx Hh.
    assert (Hs : scan (items_of data) app_name = Raise AttributeError).
    { rewrite Hi. apply scan_reaches_malformed; [exact Hpre|].
      unfold is_item. rewrite Hx, Hh. reflexivity. }
    split; [exact Hs|].
    rewrite get_cvm_info_outcome, Hd. simpl. rewrite lookup_scan, Hs.
    reflexivity.
Qed.

(** C3.  For every input stream and target name [get_cvm_info] returns:
    it never raises.  What it returns is [None] or the whole three-key
    result, and it is [None] for an empty input, for an input that does not
    decode or does not parse, for a document with no non-terminated item of
    that name, and for any error raised while the document is processed. *)
Theorem get_cvm_info_never_raises app_name w :
  exists v,
    get_cvm_info json_loads app_name w = (Return v, consumed w)
    /\ (v = PNone
        \/ exists id app_id dashboard_url,
             v = PDict [("id", id); ("app_id", app_id);
                        ("dashboard_url", dashboard_url)])
    /\ (stdin w = Some "" -> v = PNone)
    /\ (stdin w = None -> v = PNone)
    /\ (forall s, stdin w = Some s -> json_loads s = None -> v = PNone)
    /\ (forall data,
           document json_loads w = Some data ->
           no_match app_name (items_of data) = true -> v = PNone)
    /\ (forall data e,
           document json_loads w = Some data ->
           lookup data app_name = Raise e -> v = PNone).
Proof.
  exists (outcome (document json_loads w) app_name).
  split; [apply get_cvm_info_outcome|].
  split.
  { destruct (outcome_cases json_loads app_name w)
      as [[H _]|(data & target & _ & _ & _ & H)].
    - left. exact H.
    - right. rewrite H. unfold summary_of. eauto. }
  unfold document.
  split; [intros ->; reflexivity|].
  split; [intros ->; reflexivity|].
  split.
  { intros s -> Hl. destruct s as [|c s]; [reflexivity|]. rewrite Hl.
    reflexivity. }
  split.
  - intros data Hd Hn. rewrite Hd. simpl. rewrite lookup_scan.
    destruct (scan_no_match _ _ Hn) as [-> | ->]; reflexivity.
  - intros data e Hd Hl. rewrite Hd. simpl. rewrite Hl. reflexivity.
Qed.


(** C5, as amended.  The scan visits the elements in order.  When the
    elements before the first item that is not terminated and whose name
    or hosted name is the target are items too (mappings whose hosted
    field is absent or a mapping), terminated or named otherwise, the scan
    stops at that item and the result is built from it, whatever comes
    after it. *)
Theorem first_match_wins app_name w data pre x post :
  document json_loads w = Some data ->
  items_of data = (pre ++ x :: post)%list ->
  forallb (passed_over app_name) pre = true ->
  is_item x = true ->
  terminated x = false ->
  named x app_name = true ->
  scan (items_of data) app_name = Return x
  /\ get_cvm_info json_loads app_name w = (Return (summary_of x), consumed w).
Proof.
  intros Hd Hi Hpre Hx Ht Hn.
  assert (Hs : scan (items_of data) app_name = Return x).
  { rewrite Hi, (scan_prefix_passed _ _ _ Hpre), (scan_cons_item _ _ _ Hx), Ht, Hn.
    reflexivity. }
  split; [exact Hs|].
  rewrite get_cvm_info_outcome.
  rewrite (outcome_found _ _ _ _ _ Hd Hs
             (named_truthy _ _ (is_item_dict _ Hx) Hn)).
  reflexivity.
Qed.

(** C6.  A bare list of items and an object whose "items" key holds the
    same list are interchangeable: for every target name the lookup
    returns the same result on both. *)
Theorem payload_shapes_interchangeable app_name l d w1 w2 :
  document json_loads w1 = Some (PList l) ->
  document json_loads w2 = Some (PDict d) ->
  dict_lookup d "items" = Some (PList l) ->
  lookup (PList l) app_name = lookup (PDict d) app_name
  /\ fst (get_cvm_info json_loads app_name w1)
     = fst (get_cvm_info json_loads app_name w2).
Proof.
  intros H1 H2 Hitems.
  assert (Hl : lookup (PList l) app_name = lookup (PDict d) app_name).
  { rewrite !lookup_scan. simpl. rewrite Hitems. reflexivity. }
  split; [exact Hl|].
  rewrite !get_cvm_info_outcome, H1, H2. simpl. rewrite Hl. reflexivity.
Qed.

(** C7.  With a name on the command line, the process prints the result
    on standard output as one line of JSON, the object with the keys
    "id", "app_id" and "dashboard_url" and the JSON text of their values,
    and exits with status 0 exactly when a match is found; otherwise it
    exits with status 1 and standard output is left as it was. *)
Theorem main_prints_iff_match prog app_name args w :
  (forall f, single_line (float_repr f) = true) ->
  (match_found json_loads app_name w ->
   exists id app_id dashboard_url,
     let line := result_line (Json.dumps float_repr id)
                   (Json.dumps float_repr app_id)
                   (Json.dumps float_repr dashboard_url) in
     fst (get_cvm_info json_loads app_name w)
     = Return (PDict [("id", id); ("app_id", app_id);
                      ("dashboard_url", dashboard_url)])
     /\ run json_loads float_repr (prog :: app_name :: args) w
        = (0%Z, mkWorld (Some "") (S (stdin_reads w))
                  (stdout w ++ line ++ LF) (stderr w))
     /\ single_line line = true)
  /\ (~ match_found json_loads app_name w ->
      run json_loads float_repr (prog :: app_name :: args) w
      = (1%Z, consumed w)
      /\ stdout (consumed w) = stdout w)
  /\ (fst (run json_loads float_repr (prog :: app_name :: args) w) = 0%Z
      <-> match_found json_loads app_name w).
Proof.
  intros Hrepr.
  pose proof (run_named json_loads float_repr prog app_name args w) as Hrun.
  destruct (outcome_cases json_loads app_name w)
    as [[Ho Hnot]|(data & target & Hd & Hs & Ht & Ho)].
  - rewrite Ho in Hrun. simpl in Hrun.
    split; [intros Hm; contradiction|].
    split; [intros _; split; [exact Hrun|reflexivity]|].
    rewrite Hrun. simpl. split; [discriminate|intros Hm; contradiction].
  - assert (Hm : match_found json_loads app_name w)
      by (exists data, target; auto).
    rewrite (document_consumed json_loads w data Hd), Ho in Hrun.
    unfold summary_of in Hrun. rewrite dumps_result_line in Hrun.
    simpl in Hrun.
    split.
    + intros _. unfold summary_of in Ho.
      do 3 eexists. cbv zeta.
      split; [rewrite get_cvm_info_outcome, Ho; reflexivity|].
      split; [exact Hrun|].
      rewrite <- dumps_result_line. apply single_line_dumps, Hrepr.
    + split; [intros Hnot; contradiction|].
      rewrite Hrun. simpl. split; [intros _; exact Hm|reflexivity].
Qed.

(** C8.  Without a name on the command line the process prints the usage
    line on the error stream and exits with status 1; standard input is
    not read and standard output is left as it was. *)
Theorem main_usage argv w :
  (List.length argv < 2)%nat ->
  run json_loads float_repr argv w
  = (1%Z, mkWorld (stdin w) (stdin_reads w) (stdout w)
            (stderr w ++ usage_line ++ LF)).
Proof.
  intros Hlen. unfold run, main.
  destruct (Nat.ltb_spec (List.length argv) 2) as [_|Hge]; [|lia].
  reflexivity.
Qed.

(** C9.  If an element that is no mapping is reached by the scan, no
    element before it being a match, the scan raises instead of skipping
    it and [get_cvm_info] signals absence for the whole lookup, whatever
    follows that element. *)
Theorem stray_element_absence app_name w data pre x post :
  document json_loads w = Some data ->
  items_of data = (pre ++ x :: post)%list ->
  no_match app_name pre = true ->
  isinstance_dict x = false ->
  scan (items_of data) app_name = Raise AttributeError
  /\ get_cvm_info json_loads app_name w = (Return PNone, consumed w).
Proof.
  intros Hd Hi Hpre Hx.
  assert (Hs : scan (items_of data) app_name = Raise AttributeError).
  { rewrite Hi. apply scan_reaches_malformed; [exact Hpre|].
    unfold is_item. rewrite Hx. reflexivity. }
  split; [exact Hs|].
  rewrite get_cvm_info_outcome, Hd. simpl. rewrite lookup_scan, Hs.
  reflexivity.
Qed.

(** C10.  A matched item that has, in itself and in its hosted mapping,
    none of the fields the result is built from still is a success: the
    result is the dict of three nulls, not [None], the process prints it
    and exits with status 0. *)
Theorem all_null_result_printed prog app_name args w data target :
  document json_loads w = Some data ->
  scan (items_of data) app_name = Return target ->
  truthy target = true ->
  field (hosted_of target) "id" = PNone ->
  field target "id" = PNone ->
  field target "vm_uuid" = PNone ->
  field (hosted_of target) "app_id" = PNone ->
  field target "app_id" = PNone ->
  field target "dapp_dashboard_url" = PNone ->
  field (hosted_of target) "app_url" = PNone ->
  get_cvm_info json_loads app_name w
  = (Return (PDict [("id", PNone); ("app_id", PNone);
                    ("dashboard_url", PNone)]),
     consumed w)
  /\ run json_loads float_repr (prog :: app_name :: args) w
     = (0%Z, mkWorld (Some "") (S (stdin_reads w))
               (stdout w ++ all_null_line ++ LF) (stderr w)).
Proof.
  intros Hd Hs Ht H1 H2 H3 H4 H5 H6 H7.
  pose proof (outcome_found json_loads _ _ _ _ Hd Hs Ht) as Ho.
  unfold summary_of in Ho. rewrite H1, H2, H3, H4, H5, H6, H7 in Ho.
  simpl in Ho.
  split.
  - rewrite get_cvm_info_outcome, Ho. reflexivity.
  - rewrite run_named, (document_consumed json_loads w data Hd), Ho.
    reflexivity.
Qed.

End Properties.

(** ** The script on the documents of the specification *)

Example run_empty_input :
  run sample_loads repr_sample ["get_cvm_info.py"; "a"] (fresh "")
  = (1%Z, mkWorld (Some "") 1 "" "").
Proof. reflexivity. Qed.

Example run_malformed :
  run sample_loads repr_sample ["get_cvm_info.py"; "a"] (fresh "{")
  = (1%Z, mkWorld (Some "") 1 "" "").
Proof. reflexivity. Qed.

Example run_terminated :
  run sample_loads repr_sample ["get_cvm_info.py"; "a"]
      (fresh (text_of doc_terminated))
  = (1%Z, mkWorld (Some "") 1 "" "").
Proof. reflexivity. Qed.

Example run_hosted :
  run sample_loads repr_sample ["get_cvm_info.py"; "a"]
      (fresh (text_of doc_hosted))
  = (0%Z, mkWorld (Some "") 1
            ("{" ++ quoted "id" ++ ": " ++ quoted "999" ++ ", "
                 ++ quoted "app_id" ++ ": " ++ quoted "app1" ++ ", "
                 ++ quoted "dashboard_url" ++ ": null}" ++ LF) "").
Proof. reflexivity. Qed.

Example run_first :
  run sample_loads repr_sample ["get_cvm_info.py"; "a"]
      (fresh (text_of doc_first))
  = (0%Z, mkWorld (Some "") 1
            ("{" ++ quoted "id" ++ ": " ++ quoted "uuid1" ++ ", "
                 ++ quoted "app_id" ++ ": null, "
                 ++ quoted "dashboard_url" ++ ": null}" ++ LF) "").
Proof. reflexivity. Qed.

Example run_no_argument :
  run sample_loads repr_sample ["get_cvm_info.py"] (fresh (text_of doc_first))
  = (1%Z, mkWorld (Some (text_of doc_first)) 0 "" (usage_line ++ LF)).
Proof. reflexivity. Qed.

(** ** The claims at concrete documents *)

(** C1 as stated fails.  The matched item has hosted.id the empty string,
    a string that is not null, and id "123": first-non-null-wins gives the
    empty string for [id], the script gives "123". *)
Lemma first_non_null_counterexample :
  scan (items_of doc_empty_id) "a" = Return item_empty_id
  /\ field (hosted_of item_empty_id) "id" = PStr ""
  /\ Spec.summary item_empty_id
     = PDict [("id", PStr ""); ("app_id", PNone); ("dashboard_url", PNone)]
  /\ fst (get_cvm_info sample_loads "a" (fresh (text_of doc_empty_id)))
     = Return (PDict [("id", PStr "123"); ("app_id", PNone);
                      ("dashboard_url", PNone)])
  /\ fst (get_cvm_info sample_loads "a" (fresh (text_of doc_empty_id)))
     <> Return (Spec.summary item_empty_id).
Proof.
  repeat split; try reflexivity.
  vm_compute. discriminate.
Qed.

Lemma summary_first_truthy_witness :
  get_cvm_info sample_loads "a" (fresh (text_of doc_empty_id))
  = (Return (PDict [("id", PStr "123"); ("app_id", PNone);
                    ("dashboard_url", PNone)]),
     mkWorld (Some "") 1 "" "").
Proof.
  exact (summary_first_truthy sample_loads "a" (fresh (text_of doc_empty_id))
           doc_empty_id item_empty_id eq_refl eq_refl eq_refl).
Defined.

(** C2 as stated fails.  The second item has the target name and a
    [hosted] field that is a string.  Read with an empty hosted mapping it
    is the match; the script raises on it and returns [None]. *)
Lemma hosted_string_counterexample :
  field item_hosted_string "hosted" = PStr "x"
  /\ field item_hosted_string "name" = PStr "a"
  /\ items_of doc_hosted_string = [item_other; item_hosted_string; item_id2]
  /\ Spec.scan (items_of doc_hosted_string) "a" = Return item_hosted_string
  /\ scan (items_of doc_hosted_string) "a" = Raise AttributeError
  /\ fst (get_cvm_info sample_loads "a" (fresh (text_of doc_hosted_string)))
     = Return PNone.
Proof. repeat split; reflexivity. Qed.

Lemma hosted_not_mapping_absence_witness :
  scan [item_bare; item_id2] "a" = Return item_bare
  /\ get_cvm_info sample_loads "a" (fresh (text_of doc_hosted_string))
     = (Return PNone, mkWorld (Some "") 1 "" "").
Proof.
  split.
  - exact (proj1 (hosted_not_mapping_absence sample_loads "a")
             [("name", PStr "a")] [item_id2] eq_refl).
  - exact (proj2 (proj2 (hosted_not_mapping_absence sample_loads "a")
                    (fresh (text_of doc_hosted_string)) doc_hosted_string
                    [item_other] item_hosted_string [item_id2]
                    eq_refl eq_refl eq_refl eq_refl eq_refl)).
Defined.

Lemma get_cvm_info_never_raises_witness :
  exists v,
    get_cvm_info sample_loads "a" (fresh (text_of doc_terminated))
    = (Return v, mkWorld (Some "") 1 "" "")
    /\ v = PNone.
Proof.
  destruct (get_cvm_info_never_raises sample_loads "a"
              (fresh (text_of doc_terminated)))
    as (v & Hrun & _ & _ & _ & _ & Hnone & _).
  exists v. split; [exact Hrun|].
  exact (Hnone doc_terminated eq_refl eq_refl).
Defined.



(** C5 as stated fails.  The first item that is not skipped and has the
    target name is the second one, whose [hosted] field is null.  The claim
    has the result built from it; the script raises on it and returns
    [None]. *)
Lemma first_match_counterexample :
  items_of doc_hosted_null = [item_other; item_hosted_null; item_id2]
  /\ field item_other "name" = PStr "b"
  /\ field item_hosted_null "name" = PStr "a"
  /\ terminated item_hosted_null = false
  /\ Spec.scan (items_of doc_hosted_null) "a" = Return item_hosted_null
  /\ Spec.summary item_hosted_null
     = PDict [("id", PStr "n1"); ("app_id", PNone); ("dashboard_url", PNone)]
  /\ scan (items_of doc_hosted_null) "a" = Raise AttributeError
  /\ fst (get_cvm_info sample_loads "a" (fresh (text_of doc_hosted_null)))
     = Return PNone.
Proof. repeat split; reflexivity. Qed.

Lemma first_match_wins_witness :
  scan (items_of doc_mixed) "a" = Return item_uuid
  /\ get_cvm_info sample_loads "a" (fresh (text_of doc_mixed))
     = (Return (PDict [("id", PStr "uuid1"); ("app_id", PNone);
                       ("dashboard_url", PNone)]),
        mkWorld (Some "") 1 "" "").
Proof.
  exact (first_match_wins sample_loads "a" (fresh (text_of doc_mixed))
           doc_mixed [item_terminated; item_other] item_uuid [item_id2]
           eq_refl eq_refl eq_refl eq_refl eq_refl eq_refl).
Defined.

Lemma payload_shapes_interchangeable_witness :
  lookup doc_first "a" = lookup doc_first_wrapped "a"
  /\ fst (get_cvm_info sample_loads "a" (fresh (text_of doc_first)))
     = fst (get_cvm_info sample_loads "a" (fresh (text_of doc_first_wrapped))).
Proof.
  exact (payload_shapes_interchangeable sample_loads "a"
           [item_uuid; item_id2] [("items", PList [item_uuid; item_id2])]
           (fresh (text_of doc_first)) (fresh (text_of doc_first_wrapped))
           eq_refl eq_refl eq_refl).
Defined.

Lemma main_prints_iff_match_witness :
  run sample_loads repr_sample ["get_cvm_info.py"; "a"]
      (fresh (text_of doc_hosted))
  = (0%Z, mkWorld (Some "") 1
            (result_line (quoted "999") (quoted "app1") "null" ++ LF) "")
  /\ run sample_loads repr_sample ["get_cvm_info.py"; "b"]
        (fresh (text_of doc_hosted))
     = (1%Z, mkWorld (Some "") 1 "" "").
Proof.
  destruct (main_prints_iff_match sample_loads repr_sample
              "get_cvm_info.py" "a" [] (fresh (text_of doc_hosted))
              (fun _ => eq_refl)) as (Hfound & _ & _).
  destruct (main_prints_iff_match sample_loads repr_sample
              "get_cvm_info.py" "b" [] (fresh (text_of doc_hosted))
              (fun _ => eq_refl)) as (_ & Hnot & Hiff).
  split.
  - destruct Hfound as (id & app_id & dashboard_url & Hget & Hrun & _).
    { exists doc_hosted, item_hosted. repeat split; reflexivity. }
    vm_compute in Hget.
    injection Hget as <- <- <-.
    exact Hrun.
  - apply Hnot. intros Hm. apply Hiff in Hm. discriminate Hm.
Defined.

Lemma main_usage_witness :
  run sample_loads repr_sample ["get_cvm_info.py"] (fresh (text_of doc_hosted))
  = (1%Z, mkWorld (Some (text_of doc_hosted)) 0 "" (usage_line ++ LF)).
Proof.
  exact (main_usage sample_loads repr_sample ["get_cvm_info.py"]
           (fresh (text_of doc_hosted)) (le_n 2)).
Defined.

Lemma stray_element_absence_witness :
  scan (items_of doc_stray_number) "a" = Raise AttributeError
  /\ get_cvm_info sample_loads "a" (fresh (text_of doc_stray_number))
     = (Return PNone, mkWorld (Some "") 1 "" "").
Proof.
  exact (stray_element_absence sample_loads "a"
           (fresh (text_of doc_stray_number)) doc_stray_number
           [item_other] (PInt 7) [item_id2]
           eq_refl eq_refl eq_refl eq_refl).
Defined.

Lemma all_null_result_printed_witness :
  get_cvm_info sample_loads "a" (fresh (text_of doc_bare))
  = (Return (PDict [("id", PNone); ("app_id", PNone);
                    ("dashboard_url", PNone)]),
     mkWorld (Some "") 1 "" "")
  /\ run sample_loads repr_sample ["get_cvm_info.py"; "a"]
        (fresh (text_of doc_bare))
     = (0%Z, mkWorld (Some "") 1 (all_null_line ++ LF) "").
Proof.
  exact (all_null_result_printed sample_loads repr_sample
           "get_cvm_info.py" "a" [] (fresh (text_of doc_bare))
           doc_bare item_bare
           eq_refl eq_refl eq_refl eq_refl eq_refl eq_refl eq_refl eq_refl
           eq_refl eq_refl).
Defined.

(** * Further properties of the script *)

(** ** The loop as a search *)

Lemma passed_over_not_match app_name x :
  is_item x = true ->
  passed_over app_name x = negb (is_match app_name x).
Proof.
  unfold passed_over, is_match. intros ->. simpl.
  destruct (terminated x), (named x app_name); reflexivity.
Qed.

Lemma scan_find items app_name :
  forallb is_item items = true ->
  scan items app_name
  = Return (match find (is_match app_name) items with
            | Some x => x
            | None => PNone
            end).
Proof.
  induction items as [|x items IH]; [reflexivity|].
  simpl forallb. intros H. apply andb_prop in H. destruct H as [Hx Hitems].
  simpl find. destruct (is_match app_name x) eqn:Hm.
  - unfold is_match in Hm. rewrite Hx in Hm. simpl in Hm.
    apply andb_prop in Hm. destruct Hm as [Hnt Hn].
    apply negb_true_iff in Hnt.
    rewrite (scan_cons_item _ _ _ Hx), Hnt, Hn. reflexivity.
  - rewrite scan_cons_passed; [exact (IH Hitems)|].
    rewrite (passed_over_not_match _ _ Hx), Hm. reflexivity.
Qed.

(** X5.  On a document whose elements are items of the data model the
    lookup is a search followed by the summary: it returns the summary of
    the first element that is not terminated and carries the name, [None]
    when there is none, and it does not raise. *)
Theorem lookup_is_find data app_name :
  forallb is_item (items_of data) = true ->
  lookup data app_name
  = Return (match find (is_match app_name) (items_of data) with
            | Some x => summary_of x
            | None => PNone
            end).
Proof.
  intros H. rewrite lookup_scan, (scan_find _ _ H).
  destruct (find (is_match app_name) (items_of data)) as [x|] eqn:Hf;
    [|reflexivity].
  apply find_some in Hf. destruct Hf as [_ Hm]. unfold is_match in Hm.
  apply andb_prop in Hm. destruct Hm as [Hm Hn].
  apply andb_prop in Hm. destruct Hm as [Hx _].
  rewrite (named_truthy _ _ (is_item_dict _ Hx) Hn).
  apply summary_item, Hx.
Qed.

Lemma lookup_is_find_witness :
  lookup doc_mixed "a"
  = Return (PDict [("id", PStr "uuid1"); ("app_id", PNone);
                   ("dashboard_url", PNone)]).
Proof. exact (lookup_is_find doc_mixed "a" eq_refl). Defined.

Lemma find_filter_terminated app_name items :
  find (is_match app_name) (filter (fun x => negb (terminated x)) items)
  = find (is_match app_name) items.
Proof.
  induction items as [|x items IH]; [reflexivity|].
  simpl. destruct (terminated x) eqn:Ht; simpl.
  - unfold is_match at 2. rewrite Ht, andb_false_r. exact IH.
  - rewrite IH. reflexivity.
Qed.

Lemma forallb_filter_keep {A : Type} (p q : A -> bool) l :
  forallb p l = true -> forallb p (filter q l) = true.
Proof.
  induction l as [|x l IH]; [reflexivity|].
  simpl. intros H. apply andb_prop in H. destruct H as [Hx Hl].
  destruct (q x); simpl; [rewrite Hx|]; auto.
Qed.

(** X6.  Terminated items are invisible: taking them out of a list of
    items of the data model changes the result of the lookup for no
    name. *)
Theorem terminated_items_invisible items app_name :
  forallb is_item items = true ->
  lookup (PList (filter (fun x => negb (terminated x)) items)) app_name
  = lookup (PList items) app_name.
Proof.
  intros H. rewrite !lookup_scan. simpl items_of.
  rewrite (scan_find _ _ H).
  rewrite (scan_find _ _ (forallb_filter_keep _ _ _ H)).
  rewrite find_filter_terminated. reflexivity.
Qed.

Lemma terminated_items_invisible_witness :
  lookup (PList [item_other; item_uuid; item_id2]) "a"
  = lookup (PList [item_terminated; item_other; item_uuid; item_id2]) "a".
Proof.
  exact (terminated_items_invisible
           [item_terminated; item_other; item_uuid; item_id2] "a" eq_refl).
Defined.

(** ** Strings and truth values *)

Lemma eq_str_PStr v s : eq_str v s = true -> v = PStr s.
Proof.
  destruct v; simpl; try discriminate.
  intros H. apply pystr_eqb_eq in H. rewrite H. reflexivity.
Qed.

Lemma truthy_first_truthy candidates :
  truthy (first_truthy candidates) = existsb truthy candidates.
Proof.
  induction candidates as [|c rest IH]; [reflexivity|].
  destruct rest as [|c' rest'].
  - simpl. rewrite orb_false_r. reflexivity.
  - change (first_truthy (c :: c' :: rest'))
      with (if truthy c then c else first_truthy (c' :: rest')).
    change (existsb truthy (c :: c' :: rest'))
      with (truthy c || existsb truthy (c' :: rest')).
    destruct (truthy c) eqn:Hc; [exact Hc|exact IH].
Qed.

(** ** The process, further *)

(** The item sequence of a document of another shape is empty. *)
Lemma items_of_not_payload data : is_payload data = false -> items_of data = [].
Proof.
  destruct data as [| | | | |l|d]; simpl; try reflexivity; [discriminate|].
  destruct (dict_lookup d "items") as [[| | | | |l|d']|];
    try reflexivity; discriminate.
Qed.

Section FurtherProperties.

Variable json_loads : pystr -> option pyval.
Variable float_repr : spec_float -> string.

Lemma main_named prog app_name args w :
  main json_loads float_repr (prog :: app_name :: args) w
  = let info := outcome (document json_loads w) app_name in
    if truthy info
    then (Return tt, mkWorld (stdin (consumed w)) (stdin_reads (consumed w))
                       (stdout w ++ Json.dumps float_repr info ++ LF)
                       (stderr w))
    else (Raise (SystemExit 1), consumed w).
Proof.
  unfold main. simpl. unfold M_bind, lift. simpl.
  rewrite get_cvm_info_outcome.
  destruct (truthy (outcome (document json_loads w) app_name)); reflexivity.
Qed.

Lemma main_unnamed argv w :
  (List.length argv <? 2)%nat = true ->
  main json_loads float_repr argv w
  = (Raise (SystemExit 1),
     mkWorld (stdin w) (stdin_reads w) (stdout w)
       (stderr w ++ usage_line ++ LF)).
Proof. intros H. unfold main. rewrite H. reflexivity. Qed.

(** X1.  Whatever the command line and the input, the script ends
    normally or by [sys.exit(1)]: no other exception leaves it, and the
    exit status is 0 or 1. *)
Theorem main_exits_cleanly argv w :
  (fst (main json_loads float_repr argv w) = Return tt
   /\ fst (run json_loads float_repr argv w) = 0%Z)
  \/ (fst (main json_loads float_repr argv w) = Raise (SystemExit 1)
      /\ fst (run json_loads float_repr argv w) = 1%Z).
Proof.
  unfold run.
  destruct argv as [|prog [|app_name args]];
    try (right; rewrite main_unnamed by reflexivity; split; reflexivity).
  rewrite main_named. cbv zeta.
  destruct (truthy (outcome (document json_loads w) app_name));
    [left|right]; split; reflexivity.
Qed.

(** X2.  With a name on the command line the script reads standard input
    once, writes nothing on the error stream, and only appends to standard
    output. *)
Theorem named_run_effects prog app_name args w :
  exists line,
    snd (run json_loads float_repr (prog :: app_name :: args) w)
    = mkWorld (match stdin w with Some _ => Some "" | None => None end)
        (S (stdin_reads w)) (stdout w ++ line) (stderr w).
Proof.
  rewrite run_named. cbv zeta.
  destruct (truthy (outcome (document json_loads w) app_name)).
  - eexists. reflexivity.
  - exists "". rewrite string_app_nil_r. reflexivity.
Qed.

(** X3.  Only the first argument counts: the name of the program and the
    arguments after the first one change nothing. *)
Theorem extra_arguments_ignored prog prog' app_name args args' w :
  run json_loads float_repr (prog :: app_name :: args) w
  = run json_loads float_repr (prog' :: app_name :: args') w.
Proof. rewrite !run_named. reflexivity. Qed.

(** X4.  A document that is neither a list nor an object whose "items"
    key holds a list (a number, a string, null, an object without "items"
    or with "items" of another type) has no items: the lookup returns
    [None] for every name and the process exits with status 1. *)
Theorem other_shapes_absent prog app_name args w data :
  document json_loads w = Some data ->
  is_payload data = false ->
  get_cvm_info json_loads app_name w = (Return PNone, consumed w)
  /\ run json_loads float_repr (prog :: app_name :: args) w
     = (1%Z, consumed w).
Proof.
  intros Hd Hp.
  assert (Ho : outcome (document json_loads w) app_name = PNone).
  { rewrite Hd. simpl. rewrite lookup_scan, (items_of_not_payload _ Hp).
    reflexivity. }
  split.
  - rewrite get_cvm_info_outcome, Ho. reflexivity.
  - rewrite run_named, Ho. reflexivity.
Qed.

(** X7.  The match of the scan is an element of the sequence, a mapping,
    and the target name is, as a string, its name or the name of its
    hosted mapping: a name that is a number or null matches no target. *)
Theorem match_carries_name items app_name target :
  scan items app_name = Return target ->
  truthy target = true ->
  In target items
  /\ isinstance_dict target = true
  /\ (field target "name" = PStr app_name
      \/ field (hosted_of target) "name" = PStr app_name).
Proof.
  intros Hs Ht.
  destruct (scan_returns _ _ _ Hs)
    as [[-> _]|(pre & post & -> & _ & Hx & _ & Hn)]; [discriminate|].
  split; [apply in_elt|].
  split; [exact (is_item_dict _ Hx)|].
  unfold named in Hn. apply orb_prop in Hn.
  destruct Hn as [Hn|Hn]; [left|right]; apply eq_str_PStr, Hn.
Qed.

(** X8.  A field of the result is truthy exactly when one of its
    candidates is: [id] is null or falsy only if hosted.id, item.id and
    item.vm_uuid all are, and so for [app_id] and [dashboard_url]. *)
Theorem result_field_truthy app_name w data target :
  document json_loads w = Some data ->
  scan (items_of data) app_name = Return target ->
  truthy target = true ->
  exists id app_id dashboard_url,
    fst (get_cvm_info json_loads app_name w)
    = Return (PDict [("id", id); ("app_id", app_id);
                     ("dashboard_url", dashboard_url)])
    /\ truthy id
       = truthy (field (hosted_of target) "id")
         || truthy (field target "id")
         || truthy (field target "vm_uuid")
    /\ truthy app_id
       = truthy (field (hosted_of target) "app_id")
         || truthy (field target "app_id")
    /\ truthy dashboard_url
       = truthy (field target "dapp_dashboard_url")
         || truthy (field (hosted_of target) "app_url").
Proof.
  intros Hd Hs Ht.
  rewrite get_cvm_info_outcome, (outcome_found _ _ _ _ _ Hd Hs Ht).
  unfold summary_of. do 3 eexists.
  split; [reflexivity|].
  rewrite !truthy_first_truthy. simpl. rewrite !orb_false_r, orb_assoc.
  repeat split; reflexivity.
Qed.

(** X9.  The printed line is the object with the keys "id", "app_id" and
    "dashboard_url" in this order, each followed by a colon, a space and
    the JSON text of its value, the members separated by a comma and a
    space. *)
Theorem printed_line_format prog app_name args w data target :
  document json_loads w = Some data ->
  scan (items_of data) app_name = Return target ->
  truthy target = true ->
  exists id app_id dashboard_url,
    fst (get_cvm_info json_loads app_name w)
    = Return (PDict [("id", id); ("app_id", app_id);
                     ("dashboard_url", dashboard_url)])
    /\ stdout (snd (run json_loads float_repr (prog :: app_name :: args) w))
       = stdout w
         ++ result_line (Json.dumps float_repr id)
              (Json.dumps float_repr app_id)
              (Json.dumps float_repr dashboard_url)
         ++ LF.
Proof.
  intros Hd Hs Ht.
  rewrite get_cvm_info_outcome, run_named.
  rewrite (outcome_found _ _ _ _ _ Hd Hs Ht).
  unfold summary_of. do 3 eexists.
  split; [reflexivity|].
  cbv zeta. rewrite <- dumps_result_line. reflexivity.
Qed.

(** X10.  What the script appends to standard output is nothing, or one
    line of printable ASCII characters (from the space to the tilde) and a
    line feed, whatever characters the document has, provided the [repr]
    of a float is printable ASCII. *)
Theorem stdout_printable_ascii prog app_name args w :
  (forall f, printable_ascii (float_repr f) = true) ->
  stdout (snd (run json_loads float_repr (prog :: app_name :: args) w))
  = stdout w
  \/ exists line,
       printable_ascii line = true
       /\ stdout (snd (run json_loads float_repr (prog :: app_name :: args) w))
          = stdout w ++ line ++ LF.
Proof.
  intros Hrepr. rewrite run_named. cbv zeta.
  destruct (truthy (outcome (document json_loads w) app_name)).
  - right. eexists. split; [|reflexivity].
    apply printable_dumps, Hrepr.
  - left. reflexivity.
Qed.

End FurtherProperties.

(** ** Statuses other than "terminated" *)

Lemma eq_str_false v s : v <> PStr s -> eq_str v s = false.
Proof.
  destruct v as [| | | |t| |]; simpl; try reflexivity.
  intros H. destruct (pystr_eqb t s) eqn:E; [|reflexivity].
  apply pystr_eqb_eq in E. rewrite E in H. contradiction H. reflexivity.
Qed.

(** X11.  Only the string "terminated" excludes an item: an item with any
    other status and hosted status (another string, such as "deleted", a
    number, null, none at all) that carries the name is the match when the
    scan reaches it. *)
Theorem other_status_matches x rest app_name :
  is_item x = true ->
  field x "status" <> PStr "terminated" ->
  field (hosted_of x) "status" <> PStr "terminated" ->
  named x app_name = true ->
  scan (x :: rest) app_name = Return x.
Proof.
  intros Hx Hs Hh Hn.
  rewrite (scan_cons_item _ _ _ Hx). unfold terminated.
  rewrite (eq_str_false _ _ Hs), (eq_str_false _ _ Hh), Hn. reflexivity.
Qed.

(** ** The further properties at concrete documents *)

Lemma other_status_matches_witness :
  scan [item_deleted; item_id2] "a" = Return item_deleted.
Proof.
  exact (other_status_matches item_deleted [item_id2] "a" eq_refl
           ltac:(discriminate) ltac:(discriminate) eq_refl).
Defined.

Lemma other_shapes_absent_witness :
  get_cvm_info shape_loads "a" (fresh (text_of doc_no_items))
  = (Return PNone, mkWorld (Some "") 1 "" "")
  /\ run shape_loads repr_sample ["get_cvm_info.py"; "a"]
        (fresh (text_of doc_no_items))
     = (1%Z, mkWorld (Some "") 1 "" "").
Proof.
  exact (other_shapes_absent shape_loads repr_sample "get_cvm_info.py" "a" []
           (fresh (text_of doc_no_items)) doc_no_items eq_refl eq_refl).
Defined.

Lemma match_carries_name_witness :
  In item_hosted_name (items_of doc_hosted_name)
  /\ isinstance_dict item_hosted_name = true
  /\ (field item_hosted_name "name" = PStr "a"
      \/ field (hosted_of item_hosted_name) "name" = PStr "a").
Proof.
  exact (match_carries_name (items_of doc_hosted_name) "a" item_hosted_name
           eq_refl eq_refl).
Defined.

Lemma result_field_truthy_witness :
  exists id app_id dashboard_url,
    fst (get_cvm_info shape_loads "a" (fresh (text_of doc_hosted_name)))
    = Return (PDict [("id", id); ("app_id", app_id);
                     ("dashboard_url", dashboard_url)])
    /\ truthy id = true
    /\ truthy app_id = false
    /\ truthy dashboard_url = true.
Proof.
  destruct (result_field_truthy shape_loads "a"
              (fresh (text_of doc_hosted_name)) doc_hosted_name
              item_hosted_name eq_refl eq_refl eq_refl)
    as (id & app_id & dashboard_url & Hr & Hi & Ha & Hu).
  exists id, app_id, dashboard_url.
  split; [exact Hr|]. split; [exact Hi|]. split; [exact Ha|exact Hu].
Defined.

Lemma printed_line_format_witness :
  stdout (snd (run shape_loads repr_sample ["get_cvm_info.py"; "a"]
                 (fresh (text_of doc_euro))))
  = result_line (quoted (Json.backslash ++ "u20ac"))
      (quoted (Json.backslash ++ "ud83d" ++ Json.backslash ++ "ude00"))
      "null"
    ++ LF.
Proof.
  destruct (printed_line_format shape_loads repr_sample "get_cvm_info.py"
              "a" [] (fresh (text_of doc_euro)) doc_euro item_euro
              eq_refl eq_refl eq_refl)
    as (id & app_id & dashboard_url & Hget & Hout).
  vm_compute in Hget. injection Hget as <- <- <-.
  exact Hout.
Defined.

Lemma stdout_printable_ascii_witness :
  stdout (snd (run shape_loads repr_sample ["get_cvm_info.py"; "a"]
                 (fresh (text_of doc_euro))))
  = ""
  \/ exists line,
       printable_ascii line = true
       /\ stdout (snd (run shape_loads repr_sample ["get_cvm_info.py"; "a"]
                         (fresh (text_of doc_euro))))
          = line ++ LF.
Proof.
  exact (stdout_printable_ascii shape_loads repr_sample "get_cvm_info.py"
           "a" [] (fresh (text_of doc_euro)) (fun _ => eq_refl)).
Defined.

Example run_hosted_name :
  run shape_loads repr_sample ["get_cvm_info.py"; "a"]
      (fresh (text_of doc_hosted_name))
  = (0%Z, mkWorld (Some "") 1
            (result_line (quoted "h1") "null" (quoted "http://h") ++ LF) "").
Proof. reflexivity. Qed.
